(** * Lazy sequences of oemof.solph ([src/oemof/solph/_plumbing.py])

    A shallow embedding of the function [sequence] and of the class
    [_Sequence], and the properties of the lazy sequence abstraction
    proved about them.

    Python objects are modelled by the type [Py.value]; a call that can
    raise returns a [Py.result]; the one method that assigns to [self]
    ([__getitem__]) is modelled with explicit state passing, and for
    uniformity every method returns the object next to its result. *)

From Stdlib Require Import ZArith List String Ascii Bool Lia Permutation.
Import ListNotations.
Local Open Scope string_scope.
Local Open Scope list_scope.
Local Open Scope Z_scope.
Local Set Warnings "-register-all".

(* ================================================================== *)
(** ** The fragment of Python the module relies on *)
(* ================================================================== *)

Module Py.

(** The objects that reach [sequence] in this development: [None], ints,
    strings, lists, tuples and dicts with string keys (a dict is kept as
    an association list in insertion order).  Floats and bools are left
    out of the universe; [_Sequence] objects themselves are kept apart
    (type [_Sequence] below). *)
Inductive value : Type :=
| VNone
| VInt (z : Z)
| VStr (s : string)
| VList (l : list value)
| VTuple (l : list value)
| VDict (d : list (string * value)).

(** The exception classes the code can raise on this universe.
    [KeyError] carries its argument, which tells the lookup failure
    [KeyError('len')] from the [KeyError] that [sequence] raises itself.
    [Formatted fmt arg] is not a class of its own: it stands for the
    exception in which the check [fmt % arg != 0] ends when [fmt] is a
    string (see [mod_int]). *)
Inductive exn : Type :=
| KeyError (arg : value)
| ValueError
| TypeError
| IndexError
| ZeroDivisionError
| OverflowError
| Formatted (fmt : string) (arg : Z).

Inductive result (A : Type) : Type :=
| Ok (a : A)
| Raise (e : exn).
Arguments Ok {A} a.
Arguments Raise {A} e.

Definition bind {A B : Type} (r : result A) (k : A -> result B) : result B :=
  match r with
  | Ok a => k a
  | Raise e => Raise e
  end.

Definition raises {A : Type} (r : result A) : bool :=
  match r with
  | Ok _ => false
  | Raise _ => true
  end.

(** [isinstance(v, abc.Iterable)] *)
Definition is_iterable (v : value) : bool :=
  match v with
  | VStr _ | VList _ | VTuple _ | VDict _ => true
  | VNone | VInt _ => false
  end.

(** [isinstance(v, str)] *)
Definition is_str (v : value) : bool :=
  match v with
  | VStr _ => true
  | _ => false
  end.

(** [isinstance(v, abc.MutableMapping)] *)
Definition is_mutable_mapping (v : value) : bool :=
  match v with
  | VDict _ => true
  | _ => false
  end.

(** [v is not None] *)
Definition is_not_None (v : value) : bool :=
  match v with
  | VNone => false
  | _ => true
  end.

Definition chars (s : string) : list value :=
  map (fun c => VStr (String c EmptyString)) (list_ascii_of_string s).

(** [bool(v)], as taken by [if v:] *)
Definition truthy (v : value) : bool :=
  match v with
  | VNone => false
  | VInt z => negb (z =? 0)
  | VStr s => negb (Nat.eqb (String.length s) 0)
  | VList l | VTuple l => negb (Nat.eqb (List.length l) 0)
  | VDict d => negb (Nat.eqb (List.length d) 0)
  end.

(** [len(v)] *)
Definition len (v : value) : result Z :=
  match v with
  | VStr s => Ok (Z.of_nat (String.length s))
  | VList l | VTuple l => Ok (Z.of_nat (List.length l))
  | VDict d => Ok (Z.of_nat (List.length d))
  | VNone | VInt _ => Raise TypeError
  end.

(** [list(v)]: the items that [for x in v] visits, in order. *)
Definition iter (v : value) : result (list value) :=
  match v with
  | VStr s => Ok (chars s)
  | VList l | VTuple l => Ok l
  | VDict d => Ok (map (fun kv => VStr (fst kv)) d)
  | VNone | VInt _ => Raise TypeError
  end.

(** [d[key]] and [d.get(key)] on a dict. *)
Fixpoint dict_find (d : list (string * value)) (key : string) : option value :=
  match d with
  | [] => None
  | (k, v) :: d' => if String.eqb k key then Some v else dict_find d' key
  end.

Definition dict_getitem (d : list (string * value)) (key : string) : result value :=
  match dict_find d key with
  | Some v => Ok v
  | None => Raise (KeyError (VStr key))
  end.

Definition dict_get (d : list (string * value)) (key : string) : value :=
  match dict_find d key with
  | Some v => v
  | None => VNone
  end.

(** [l[k]] on a list, tuple or string of items [l]: a negative index
    counts from the end, anything outside [-len(l) .. len(l)-1] raises
    [IndexError]. *)
Definition index (l : list value) (k : Z) : result value :=
  let n := Z.of_nat (List.length l) in
  let k' := if k <? 0 then k + n else k in
  if (k' <? 0) || (n <=? k') then Raise IndexError
  else match nth_error l (Z.to_nat k') with
       | Some v => Ok v
       | None => Raise IndexError
       end.

(** [v[k]] for an int [k]. *)
Definition getitem (v : value) (k : Z) : result value :=
  match v with
  | VStr s => index (chars s) k
  | VList l | VTuple l => index l k
  | VDict d => Raise (KeyError (VInt k))
  | VNone | VInt _ => Raise TypeError
  end.

(** The items of an ordered collection: a list, a tuple or a string.
    On these [len], [bool], [for] and [v[k]] all go by position. *)
Definition items (v : value) : option (list value) :=
  match v with
  | VList l | VTuple l => Some l
  | VStr s => Some (chars s)
  | VNone | VInt _ | VDict _ => None
  end.

(** [a % n] for an int [n], as the check [a % n != 0] of [sequence],
    its one user, takes it.  For [None], a list, a tuple or a dict as
    [a], Python raises [TypeError].  For a string [a] it runs
    %-formatting, which raises ([TypeError], [ValueError], ..., by the
    format) or returns a string; a string is not equal to 0, so the
    check then raises its [KeyError].  The format is not followed here:
    a string operand leaves by [Formatted a n], which stands for the
    exception that the check ends in, whichever it is. *)
Definition mod_int (a : value) (n : Z) : result Z :=
  match a with
  | VInt z => if n =? 0 then Raise ZeroDivisionError else Ok (z mod n)
  | VStr fmt => Raise (Formatted fmt n)
  | VNone | VList _ | VTuple _ | VDict _ => Raise TypeError
  end.

(** [sys.maxsize] on a 64-bit build, the largest [Py_ssize_t]. *)
Definition maxsize : Z := 2 ^ 63 - 1.

(** An int handed to C code as a count ([itertools.repeat(x, count)],
    [l * count]): [OverflowError] unless it fits a [Py_ssize_t]. *)
Definition as_ssize (count : Z) : result Z :=
  if (- maxsize - 1 <=? count) && (count <=? maxsize) then Ok count
  else Raise OverflowError.

(** *** [int(a / b)] on ints

    [a / b] is the true division of two ints: the exact quotient rounded
    to the nearest binary64 float, ties to even, [OverflowError] when
    that float would not be finite.  [int] then truncates toward zero.
    The float is kept as a pair of a 53-bit significand [m] and an
    exponent [e], standing for [m * 2^e]. *)

(** nearest integer to [x / y] for [0 <= x], [0 < y], ties to even *)
Definition round_half_even (x y : Z) : Z :=
  let f := x / y in
  let r := x mod y in
  if 2 * r <? y then f
  else if y <? 2 * r then f + 1
  else if Z.even f then f else f + 1.

(** [int(n / d)] for [0 < n] and [0 < d].  A quotient below one half
    rounds to a float of at most 0.5 and truncates to 0; otherwise the
    exponent of the quotient is [k] with [2^k <= n/d < 2^(k+1)]. *)
Definition int_true_div_pos (n d : Z) : result Z :=
  if 2 * n <? d then Ok 0
  else
    let k := if n <? d then -1 else Z.log2 (n / d) in
    let e := k - 52 in
    if 0 <=? e then
      let m := round_half_even n (d * 2 ^ e) in
      if 2 ^ 1024 <=? m * 2 ^ e then Raise OverflowError
      else Ok (m * 2 ^ e)
    else
      let m := round_half_even (n * 2 ^ (- e)) d in
      Ok (m / 2 ^ (- e)).

Definition int_true_div (a b : Z) : result Z :=
  if b =? 0 then Raise ZeroDivisionError
  else if a =? 0 then Ok 0
  else bind (int_true_div_pos (Z.abs a) (Z.abs b))
            (fun q => Ok (Z.sgn a * Z.sgn b * q)).

End Py.

Import Py.

Notation "x <- e ;; k" := (bind e (fun x => k))
  (at level 61, e at next level, right associativity).

(* ================================================================== *)
(** ** The class [_Sequence] *)
(* ================================================================== *)

(** The attributes that [__init__] sets; [data] is the list that
    [UserList] keeps, [period_length] is [None] or an int. *)
Record _Sequence : Type := Build_Sequence {
  default : value;
  periodic_values : value;
  default_changed : bool;
  highest_index : Z;
  period_length : option Z;
  data : list value
}.

Definition set_highest_index (self : _Sequence) (h : Z) : _Sequence :=
  {| default := default self;
     periodic_values := periodic_values self;
     default_changed := default_changed self;
     highest_index := h;
     period_length := period_length self;
     data := data self |}.


(** The constructor, with its keyword arguments [default],
    [periodic_values] and [highest_index]; [initlist] is the one
    positional argument that [UserList] takes ([VNone] when there is
    none).  The keyword defaults are [None], [None] and [-1]. *)
Definition __init__ (initlist default periodic_values : value)
    (highest_index : Z) : result _Sequence :=
  if is_not_None default && is_not_None periodic_values then Raise ValueError
  else
    period_length <-
      (if truthy periodic_values
       then n <- len periodic_values ;;
            w <- int_true_div highest_index n ;;
            Ok (Some w)
       else Ok None) ;;
    data <- (if is_not_None initlist then iter initlist else Ok []) ;;
    Ok {| default := default;
          periodic_values := periodic_values;
          default_changed := false;
          highest_index := highest_index;
          period_length := period_length;
          data := data |}.

(** [key // self.period_length] *)
Definition _get_period_ (self : _Sequence) (key : Z) : result Z :=
  match period_length self with
  | None => Raise TypeError
  | Some w => if w =? 0 then Raise ZeroDivisionError else Ok (key / w)
  end.

(** [self[key]] for an int [key]: the value returned or the exception
    raised, and the object afterwards. *)
Definition __getitem__ (self : _Sequence) (key : Z)
    : result value * _Sequence :=
  if truthy (periodic_values self) then
    (period <- _get_period_ self key ;;
     getitem (periodic_values self) period,
     self)
  else
    (Ok (default self),
     set_highest_index self (Z.max (highest_index self) key)).

(** [[value for value in items for _ in range(w)]] *)
Definition expand (items : list value) (w : Z) : list value :=
  flat_map (fun value => repeat value (Z.to_nat w)) items.

(** The comprehension over [self.periodic_values] and
    [range(self.period_length)] that [__init_list] and [__iter__] share;
    [range] is called once per item, so not at all without items. *)
Definition periods (self : _Sequence) : result (list value) :=
  items <- iter (periodic_values self) ;;
  match items, period_length self with
  | [], _ => Ok []
  | _ :: _, None => Raise TypeError
  | _ :: _, Some w => Ok (expand items w)
  end.

(** [[x] * count] and [itertools.repeat(x, count)], as a list: no item
    for a negative [count], [OverflowError] for a [count] that does not
    fit a [Py_ssize_t].  (Memory is taken to suffice for the list.) *)
Definition repeated (x : value) (count : Z) : result (list value) :=
  count <- as_ssize count ;;
  Ok (repeat x (Z.to_nat count)).


(** The method itself: the int it returns, which the builtin [len]
    would refuse when negative. *)
Definition __len__ (self : _Sequence) : result Z * _Sequence :=
  if truthy (periodic_values self) then
    (Ok (highest_index self), self)
  else
    (Ok (Z.max (Z.of_nat (List.length (data self))) (highest_index self + 1)),
     self).

(** The items that the returned iterator yields. *)
Definition __iter__ (self : _Sequence) : result (list value) * _Sequence :=
  if truthy (periodic_values self) then
    (periods self, self)
  else
    (repeated (default self) (highest_index self + 1), self).

(* ================================================================== *)
(** ** The function [sequence] *)
(* ================================================================== *)

(** What [sequence] returns: its argument, or a new [_Sequence]. *)
Inductive uniform : Type :=
| PassThrough (v : value)
| Lazy (s : _Sequence).

Definition multiple_msg : string :=
  "The length must be a multiple of the number of periodic values!".

Definition sequence (iterable_or_scalar : value) : result uniform :=
  if is_iterable iterable_or_scalar && negb (is_str iterable_or_scalar) then
    match iterable_or_scalar with
    | VDict d =>
        length <- dict_getitem d "len" ;;
        values <- dict_getitem d "values" ;;
        n <- len values ;;
        r <- mod_int length n ;;
        if negb (r =? 0) then Raise (KeyError (VStr multiple_msg))
        else
          match dict_get d "len" with
          | VInt highest_index =>
              s <- __init__ VNone VNone (dict_get d "values") highest_index ;;
              Ok (Lazy s)
          | _ => Raise TypeError
          end
    | _ => Ok (PassThrough iterable_or_scalar)
    end
  else
    s <- __init__ VNone iterable_or_scalar VNone (-1) ;;
    Ok (Lazy s).

(** *** Consuming a sequence *)

(** The object after the reads [s[i]] for [i] in [keys], in order
    (a read that raises leaves the object as it is). *)
Definition reads (keys : list Z) (s : _Sequence) : _Sequence :=
  fold_left (fun q i => snd (__getitem__ q i)) keys s.

(** The three operations of the uniform sequence, and what they return. *)
Inductive op : Type :=
| Read (i : Z)
| Length
| Iterate.

Inductive answer : Type :=
| AValue (v : value)
| ALength (n : Z)
| AItems (l : list value).

Definition lift {A : Type} (f : A -> answer) (r : result A * _Sequence)
    : result answer * _Sequence :=
  (x <- fst r ;; Ok (f x), snd r).

Definition run (o : op) (s : _Sequence) : result answer * _Sequence :=
  match o with
  | Read i => lift AValue (__getitem__ s i)
  | Length => lift ALength (__len__ s)
  | Iterate => lift AItems (__iter__ s)
  end.

(** The object after the operations [os], applied in order. *)
Definition runs (os : list op) (s : _Sequence) : _Sequence :=
  fold_left (fun q o => snd (run o q)) os s.

(** the mapping [{"len": L, "values": p}] *)
Definition periodic_spec (L : Z) (p : value) : value :=
  VDict [("len", VInt L); ("values", p)].

(** *** The two modes

    The methods branch on [if self.periodic_values]: a sequence is in
    periodic mode when that attribute is truthy, in broadcast mode
    otherwise. *)
Inductive mode : Type :=
| broadcast
| periodic.

Definition mode_of (s : _Sequence) : mode :=
  if truthy (periodic_values s) then periodic else broadcast.

(** [tiled s p w]: [s] holds the non-empty ordered pattern [p], each
    element of which covers [w] indices, [highest_index] being the
    [len(p) * w] indices in all. *)
Definition tiled (s : _Sequence) (p : list value) (w : Z) : Prop :=
  items (periodic_values s) = Some p /\
  p <> [] /\
  period_length s = Some w /\
  highest_index s = Z.of_nat (List.length p) * w.

(** *** The doctests of the module *)

Example doctest_list :
  sequence (VList [VInt 1; VInt 2]) = Ok (PassThrough (VList [VInt 1; VInt 2])).
Proof. reflexivity. Qed.

Example doctest_scalar :
  exists x, sequence (VInt 10) = Ok (Lazy x) /\
    fst (__getitem__ x 0) = Ok (VInt 10) /\
    let x1 := reads [0; 10] x in
    fst (__getitem__ (reads [0] x) 10) = Ok (VInt 10) /\
    fst (__iter__ x1) = Ok (repeat (VInt 10) 11).
Proof. eexists; split; [reflexivity|]. repeat split. Qed.

Example doctest_periodic :
  exists x, sequence (periodic_spec 9 (VList [VInt 0; VInt 1; VInt 2])) = Ok (Lazy x) /\
    fst (__iter__ x) =
      Ok (map VInt [0; 0; 0; 1; 1; 1; 2; 2; 2]) /\
    fst (__getitem__ x 1) = Ok (VInt 0) /\
    fst (__getitem__ x 4) = Ok (VInt 1) /\
    fst (__getitem__ x 7) = Ok (VInt 2) /\
    fst (__len__ x) = Ok 9.
Proof. eexists; split; [reflexivity|]. repeat split. Qed.

(** The mapping [{"len": 9, "values": [0, 1, 2]}] read at 0, 2, 3, 4, 7. *)
Example periodic_9_by_3 :
  exists x, sequence (periodic_spec 9 (VList [VInt 0; VInt 1; VInt 2])) = Ok (Lazy x) /\
    period_length x = Some 3 /\
    map (fun i => fst (__getitem__ x i)) [0; 2; 3; 4; 7] =
      map (fun z => Ok (VInt z)) [0; 0; 1; 1; 2] /\
    fst (__len__ x) = Ok 9.
Proof. eexists; split; [reflexivity|]. repeat split. Qed.

Example doctest_default :
  exists s, __init__ VNone (VInt 42) VNone (-1) = Ok s /\
    fst (__len__ s) = Ok 0 /\
    fst (__getitem__ s 1) = Ok (VInt 42) /\
    fst (__len__ (reads [1; 2] s)) = Ok 3 /\
    fst (__iter__ (reads [1; 2] s)) = Ok (repeat (VInt 42) 3).
Proof. eexists; split; [reflexivity|]. repeat split. Qed.

(* ================================================================== *)
(** ** Facts about the Python fragment *)
(* ================================================================== *)

Section TrueDivision.

Lemma round_half_even_exact (x y : Z) :
  0 < y -> round_half_even (x * y) y = x.
Proof.
  intros Hy. unfold round_half_even.
  rewrite Z.mod_mul, Z.div_mul by lia.
  destruct (Z.ltb_spec (2 * 0) y); [reflexivity | lia].
Qed.

(** A quotient of at most 53 bits is a float, so nothing is lost. *)
Lemma int_true_div_pos_exact (w d : Z) :
  0 < d -> 1 <= w <= 2 ^ 53 -> int_true_div_pos (w * d) d = Ok w.
Proof.
  intros Hd [Hw1 Hw2]. unfold int_true_div_pos.
  destruct (Z.ltb_spec (2 * (w * d)) d) as [Hlt | _]; [nia |].
  destruct (Z.ltb_spec (w * d) d) as [Hlt | _]; [nia |].
  rewrite Z.div_mul by lia.
  pose proof (Z.log2_spec w ltac:(lia)) as [Hlo Hhi].
  pose proof (Z.log2_nonneg w) as Hk0.
  assert (Hk : Z.log2 w <= 53).
  { destruct (Z.le_gt_cases (Z.log2 w) 53) as [|Hgt]; [assumption|].
    pose proof (Z.pow_le_mono_r 2 54 (Z.log2 w) ltac:(lia) ltac:(lia)).
    change (2 ^ 54) with 18014398509481984 in *.
    change (2 ^ 53) with 9007199254740992 in *. lia. }
  remember (Z.log2 w) as k eqn:Ek.
  destruct (Z.leb_spec 0 (k - 52)) as [He | He].
  - assert (Hk' : k = 52 \/ k = 53) by lia.
    destruct Hk' as [-> | ->].
    + change (52 - 52) with 0. change (2 ^ 0) with 1.
      rewrite !Z.mul_1_r, round_half_even_exact by lia.
      destruct (Z.leb_spec (2 ^ 1024) w) as [Hov | _]; [| reflexivity].
      pose proof (Z.pow_lt_mono_r 2 53 1024 ltac:(lia) ltac:(lia) ltac:(lia)).
      lia.
    + change (53 - 52) with 1. change (2 ^ 1) with 2.
      assert (Hw : w = 2 ^ 53) by lia. subst w.
      replace (2 ^ 53 * d) with (2 ^ 52 * (d * 2))
        by (change (2 ^ 53) with (2 ^ 52 * 2); ring).
      rewrite round_half_even_exact by lia.
      reflexivity.
  - replace (w * d * 2 ^ (- (k - 52))) with (w * 2 ^ (- (k - 52)) * d) by ring.
    rewrite round_half_even_exact by lia.
    rewrite Z.div_mul; [reflexivity |].
    apply Z.pow_nonzero; lia.
Qed.

Lemma int_true_div_exact (w b : Z) :
  0 < b -> Z.abs w <= 2 ^ 53 -> int_true_div (w * b) b = Ok w.
Proof.
  intros Hb Hw. unfold int_true_div.
  destruct (Z.eqb_spec b 0) as [| _]; [lia |].
  destruct (Z.eqb_spec (w * b) 0) as [H0 | Hn0].
  - f_equal. nia.
  - assert (Hw0 : w <> 0) by (intros ->; apply Hn0; reflexivity).
    rewrite Z.abs_mul, (Z.abs_eq b) by lia.
    rewrite int_true_div_pos_exact by lia.
    cbn [bind]. f_equal.
    rewrite Z.sgn_mul, (Z.sgn_pos b) by lia.
    destruct w; cbn; lia.
Qed.

(** The only exception of a true division by a nonzero int is
    [OverflowError]. *)
Lemma int_true_div_cases (a b : Z) :
  b <> 0 ->
  (exists q, int_true_div a b = Ok q) \/ int_true_div a b = Raise OverflowError.
Proof.
  intros Hb. unfold int_true_div, int_true_div_pos.
  destruct (Z.eqb_spec b 0); [contradiction |].
  repeat match goal with
         | |- context [if ?c then _ else _] => destruct c
         end; cbn [bind]; eauto.
Qed.

End TrueDivision.

Section Indexing.

Variable l : list value.
Let n := Z.of_nat (List.length l).

Lemma index_in_range (k : Z) :
  0 <= k < n ->
  exists v, nth_error l (Z.to_nat k) = Some v /\ index l k = Ok v.
Proof.
  intros Hk. unfold index. fold n.
  rewrite (proj2 (Z.ltb_ge k 0)) by lia.
  rewrite (proj2 (Z.ltb_ge k 0)) by lia.
  rewrite (proj2 (Z.leb_gt n k)) by lia. cbn [orb].
  destruct (nth_error l (Z.to_nat k)) as [v |] eqn:E; [eauto |].
  apply nth_error_None in E. subst n. lia.
Qed.

(** A negative index counts from the end. *)
Lemma index_from_end (k : Z) :
  - n <= k < 0 -> index l k = index l (k + n).
Proof.
  intros Hk. unfold index. fold n.
  rewrite (proj2 (Z.ltb_lt k 0)) by lia.
  rewrite !(proj2 (Z.ltb_ge (k + n) 0)) by lia.
  reflexivity.
Qed.

Lemma index_out_of_range (k : Z) :
  n <= k \/ k < - n -> index l k = Raise IndexError.
Proof.
  intros Hk. unfold index. fold n.
  destruct (Z.ltb_spec k 0).
  - rewrite (proj2 (Z.ltb_lt (k + n) 0)) by lia. reflexivity.
  - rewrite (proj2 (Z.ltb_ge k 0)) by lia.
    rewrite (proj2 (Z.leb_le n k)) by lia. reflexivity.
Qed.

End Indexing.

Lemma chars_length (s : string) : List.length (chars s) = String.length s.
Proof.
  unfold chars. rewrite length_map.
  induction s as [| c s IH]; cbn; [reflexivity | now rewrite IH].
Qed.

Lemma items_ops (v : value) (p : list value) :
  items v = Some p ->
  len v = Ok (Z.of_nat (List.length p)) /\
  iter v = Ok p /\
  truthy v = negb (Nat.eqb (List.length p) 0) /\
  (forall k, getitem v k = index p k) /\
  is_not_None v = true.
Proof.
  destruct v; cbn; intros H; inversion H; subst;
    rewrite ?chars_length; repeat split.
Qed.

Lemma len_truthy (v : value) (n : Z) :
  len v = Ok n -> 0 <= n /\ truthy v = negb (n =? 0) /\ is_not_None v = true.
Proof.
  destruct v; cbn; intros H; inversion H; subst; (split; [lia |]); split;
    try reflexivity;
    match goal with
    | |- context [Nat.eqb ?x 0] =>
        destruct (Nat.eqb_spec x 0) as [-> | Hx]; [reflexivity |];
        destruct (Z.eqb_spec (Z.of_nat x) 0); [lia | reflexivity]
    end.
Qed.

(* ================================================================== *)
(** ** What [sequence] builds *)
(* ================================================================== *)

(** A value that is not iterable, or is a string, is wrapped as the
    default of a fresh broadcast sequence. *)
Lemma sequence_scalar (v : value) :
  is_iterable v = false \/ is_str v = true ->
  sequence v = Ok (Lazy (Build_Sequence v VNone false (-1) None [])).
Proof.
  intros [H | H]; destruct v; try discriminate H; reflexivity.
Qed.

(** The path of a mapping with the keys [len] and [values], step by
    step: the modulo, the check, the true division of the constructor. *)
Lemma sequence_periodic_spec (L : Z) (v : value) (n : Z) :
  len v = Ok n ->
  sequence (periodic_spec L v) =
    if n =? 0 then Raise ZeroDivisionError
    else if negb (L mod n =? 0) then Raise (KeyError (VStr multiple_msg))
    else w <- int_true_div L n ;;
         Ok (Lazy (Build_Sequence VNone v false L (Some w) [])).
Proof.
  intros Hlen. destruct (len_truthy v n Hlen) as (Hn & Htr & _).
  unfold sequence, periodic_spec.
  cbn [is_iterable is_str negb andb].
  change (dict_getitem _ "len") with (Ok (A := value) (VInt L)).
  change (dict_getitem _ "values") with (Ok (A := value) v).
  change (dict_get _ "len") with (VInt L).
  change (dict_get _ "values") with v.
  cbn [bind]. rewrite Hlen. cbn [bind mod_int].
  destruct (n =? 0) eqn:En; [reflexivity |]. cbn [bind].
  destruct (L mod n =? 0); cbn [negb]; [| reflexivity].
  unfold __init__. cbn [is_not_None andb].
  rewrite Htr, Hlen. cbn [negb bind].
  destruct (int_true_div L n); reflexivity.
Qed.

Lemma sequence_periodic_spec_exact (w : Z) (v : value) (n : Z) :
  len v = Ok n -> 0 < n -> Z.abs w <= 2 ^ 53 ->
  sequence (periodic_spec (w * n) v) =
    Ok (Lazy (Build_Sequence VNone v false (w * n) (Some w) [])).
Proof.
  intros Hlen Hn Hw. rewrite (sequence_periodic_spec _ _ _ Hlen).
  rewrite (proj2 (Z.eqb_neq n 0)) by lia.
  rewrite Z.mod_mul, Z.eqb_refl by lia. cbn [negb].
  rewrite int_true_div_exact by assumption. reflexivity.
Qed.

(** The outcomes of [sequence] on a mapping, by the element count [n]
    of its values and by whether [n] divides the length. *)
Lemma sequence_periodic_spec_cases (L : Z) (p : value) (n : Z) :
  len p = Ok n ->
  (n = 0 -> sequence (periodic_spec L p) = Raise ZeroDivisionError) /\
  (0 < n -> ~ (n | L) ->
   sequence (periodic_spec L p) = Raise (KeyError (VStr multiple_msg))) /\
  (0 < n -> (n | L) ->
   sequence (periodic_spec L p) <> Raise (KeyError (VStr multiple_msg))) /\
  (0 < n -> (n | L) -> Z.abs (L / n) <= 2 ^ 53 ->
   sequence (periodic_spec L p) =
     Ok (Lazy (Build_Sequence VNone p false L (Some (L / n)) []))).
Proof.
  intros Hlen. rewrite (sequence_periodic_spec L p n Hlen).
  split; [intros ->; reflexivity |].
  split; [| split]; intros Hn Hd;
    rewrite (proj2 (Z.eqb_neq n 0)) by lia;
    pose proof (Z.mod_divide L n ltac:(lia)) as Hdiv.
  - destruct (Z.eqb_spec (L mod n) 0) as [E | _];
      [apply Hdiv in E; contradiction | reflexivity].
  - apply Hdiv in Hd. rewrite Hd. cbn [Z.eqb negb].
    destruct (int_true_div_cases L n ltac:(lia)) as [[q Hq] | Hq];
      rewrite Hq; discriminate.
  - intros Hw. destruct Hd as [z ->].
    rewrite Z.div_mul in * by lia.
    rewrite Z.mod_mul, Z.eqb_refl by lia. cbn [negb].
    rewrite int_true_div_exact by (lia || assumption). reflexivity.
Qed.

(* ================================================================== *)
(** ** Broadcast mode *)
(* ================================================================== *)

Lemma maxsize_pos : 0 < maxsize.
Proof. reflexivity. Qed.

Lemma repeated_fits (x : value) (count : Z) :
  - maxsize - 1 <= count <= maxsize ->
  repeated x count = Ok (repeat x (Z.to_nat count)).
Proof.
  intros Hc. unfold repeated, as_ssize.
  rewrite (proj2 (Z.leb_le (- maxsize - 1) count)) by lia.
  rewrite (proj2 (Z.leb_le count maxsize)) by lia. reflexivity.
Qed.

Lemma repeated_overflow (x : value) (count : Z) :
  count < - maxsize - 1 \/ maxsize < count ->
  repeated x count = Raise OverflowError.
Proof.
  intros Hc. unfold repeated, as_ssize.
  destruct (Z.leb_spec (- maxsize - 1) count);
    destruct (Z.leb_spec count maxsize); try reflexivity; lia.
Qed.

Section Broadcast.

Variable q : _Sequence.
Hypothesis Hq : mode_of q = broadcast.

Lemma broadcast_falsy : truthy (periodic_values q) = false.
Proof.
  unfold mode_of in Hq. destruct (truthy (periodic_values q));
    [discriminate | reflexivity].
Qed.

Lemma getitem_broadcast (i : Z) :
  __getitem__ q i =
    (Ok (default q), set_highest_index q (Z.max (highest_index q) i)).
Proof. unfold __getitem__. now rewrite broadcast_falsy. Qed.

Lemma len_broadcast :
  __len__ q =
    (Ok (Z.max (Z.of_nat (List.length (data q))) (highest_index q + 1)), q).
Proof. unfold __len__. now rewrite broadcast_falsy. Qed.

Lemma iter_broadcast :
  __iter__ q = (repeated (default q) (highest_index q + 1), q).
Proof. unfold __iter__. now rewrite broadcast_falsy. Qed.

End Broadcast.

Lemma reads_broadcast (keys : list Z) (q : _Sequence) :
  mode_of q = broadcast ->
  reads keys q =
    set_highest_index q (fold_left Z.max keys (highest_index q)).
Proof.
  revert q. induction keys as [| k keys IH]; intros q Hq.
  - destruct q; reflexivity.
  - unfold reads in *. cbn [fold_left].
    rewrite (getitem_broadcast q Hq). cbn [snd].
    rewrite IH by exact Hq. reflexivity.
Qed.

(** The running maximum that the reads leave in [highest_index]. *)
Lemma fold_left_max_spec (keys : list Z) (h : Z) :
  let r := fold_left Z.max keys h in
  h <= r /\ (forall k, In k keys -> k <= r) /\ (r = h \/ In r keys).
Proof.
  revert h. induction keys as [| k keys IH]; intros h; cbn.
  - repeat split; [lia | tauto | now left].
  - destruct (IH (Z.max h k)) as (H1 & H2 & H3). repeat split.
    + lia.
    + intros k' [<- | Hin]; [lia | now apply H2].
    + destruct H3 as [H3 | H3]; [| now right; right].
      destruct (Z.max_spec h k) as [[_ E] | [_ E]]; rewrite E in *.
      * right; left. now symmetry.
      * now left.
Qed.

Lemma fold_left_max_perm (keys keys' : list Z) :
  Permutation keys keys' ->
  forall h, fold_left Z.max keys h = fold_left Z.max keys' h.
Proof.
  induction 1 as [| x l l' _ IH | x y l | l l' l'' _ IH1 _ IH2]; intros h; cbn.
  - reflexivity.
  - apply IH.
  - f_equal. lia.
  - now rewrite IH1.
Qed.

(* ================================================================== *)
(** ** Periodic mode *)
(* ================================================================== *)

Lemma expand_cons (a : value) (p : list value) (w : Z) :
  expand (a :: p) w = repeat a (Z.to_nat w) ++ expand p w.
Proof. reflexivity. Qed.

Lemma expand_length (p : list value) (w : Z) :
  List.length (expand p w) = (List.length p * Z.to_nat w)%nat.
Proof.
  induction p as [| a p IH]; [reflexivity |].
  rewrite expand_cons, length_app, repeat_length, IH. cbn. lia.
Qed.

(** Position [j] of the expansion holds the pattern element of its
    period, [j // w]. *)
Lemma expand_nth (p : list value) (w : Z) (j : nat) :
  (j < List.length p * Z.to_nat w)%nat ->
  nth_error (expand p w) j = nth_error p (j / Z.to_nat w).
Proof.
  revert j. induction p as [| a p IH]; intros j Hj; [cbn in Hj; lia |].
  rewrite expand_cons. set (k := Z.to_nat w) in *.
  assert (Hk : k <> 0%nat) by (intros E; rewrite E in Hj; lia).
  destruct (Nat.lt_ge_cases j k) as [Hlt | Hge].
  - rewrite nth_error_app1 by now rewrite repeat_length.
    rewrite Nat.div_small by assumption.
    now apply nth_error_repeat.
  - rewrite nth_error_app2 by now rewrite repeat_length.
    rewrite repeat_length.
    replace (j / k)%nat with (S ((j - k) / k)).
    + cbn [nth_error]. apply IH. cbn in Hj. lia.
    + replace j with (j - k + 1 * k)%nat at 2 by lia.
      rewrite Nat.div_add by assumption. lia.
Qed.

Section Periodic.

Variables (s : _Sequence) (p : list value) (w : Z).
Hypothesis Hs : tiled s p w.

Let n := Z.of_nat (List.length p).

Lemma tiled_truthy : truthy (periodic_values s) = true.
Proof.
  destruct Hs as (Hi & Hp & _).
  destruct (items_ops _ _ Hi) as (_ & _ & -> & _).
  destruct p; [contradiction | reflexivity].
Qed.

Lemma tiled_mode : mode_of s = periodic.
Proof. unfold mode_of. now rewrite tiled_truthy. Qed.

Lemma getitem_tiled (i : Z) :
  w <> 0 -> __getitem__ s i = (index p (i / w), s).
Proof.
  intros Hw. unfold __getitem__, _get_period_. rewrite tiled_truthy.
  destruct Hs as (Hi & _ & -> & _).
  rewrite (proj2 (Z.eqb_neq w 0)) by assumption. cbn [bind].
  destruct (items_ops _ _ Hi) as (_ & _ & _ & -> & _). reflexivity.
Qed.

Lemma len_tiled : __len__ s = (Ok (n * w), s).
Proof.
  unfold __len__. rewrite tiled_truthy.
  destruct Hs as (_ & _ & _ & ->). reflexivity.
Qed.

Lemma iter_tiled : __iter__ s = (Ok (expand p w), s).
Proof.
  unfold __iter__, periods. rewrite tiled_truthy.
  destruct Hs as (Hi & Hp & -> & _).
  destruct (items_ops _ _ Hi) as (_ & -> & _). cbn [bind].
  destruct p; [contradiction | reflexivity].
Qed.

(** An index of the sequence falls into a period of the pattern. *)
Lemma read_tiled (i : Z) :
  1 <= w -> 0 <= i < n * w ->
  exists v, nth_error p (Z.to_nat (i / w)) = Some v /\
            __getitem__ s i = (Ok v, s).
Proof.
  intros Hw Hi. rewrite getitem_tiled by lia.
  destruct (index_in_range p (i / w)) as (v & Hv & E).
  - fold n. split; [apply Z.div_pos; lia |].
    apply Z.div_lt_upper_bound; lia.
  - exists v. now rewrite E.
Qed.

(** Below zero the pattern is read from its end. *)
Lemma read_tiled_from_end (i : Z) :
  1 <= w -> - (n * w) <= i <= -1 ->
  exists v, nth_error p (Z.to_nat (n + i / w)) = Some v /\
            __getitem__ s i = (Ok v, s).
Proof.
  intros Hw Hi. rewrite getitem_tiled by lia.
  assert (Hq : - n <= i / w < 0).
  { split; [apply Z.div_le_lower_bound; lia |].
    apply Z.div_lt_upper_bound; lia. }
  rewrite index_from_end by exact Hq. fold n.
  destruct (index_in_range p (i / w + n)) as (v & Hv & E).
  - fold n. lia.
  - exists v. rewrite E. split; [| reflexivity].
    now rewrite Z.add_comm.
Qed.

Lemma read_tiled_out_of_range (i : Z) :
  1 <= w -> n * w <= i \/ i < - (n * w) ->
  __getitem__ s i = (Raise IndexError, s).
Proof.
  intros Hw Hi. rewrite getitem_tiled by lia.
  rewrite index_out_of_range; [reflexivity |]. fold n.
  destruct Hi as [Hi | Hi]; [left | right].
  - apply Z.div_le_lower_bound; lia.
  - apply Z.div_lt_upper_bound; lia.
Qed.

End Periodic.

(* ================================================================== *)
(** ** The normalizer *)
(* ================================================================== *)

(** C1, as stated, fails on an empty [values]: 0 is a multiple of the
    element count 0, yet no sequence is returned; the modulo of the
    divisibility check raises [ZeroDivisionError], which is not the
    [KeyError] of the check either. *)
Lemma sequence_empty_values_zero_length :
  (Z.of_nat (List.length (@nil value)) | 0) /\
  sequence (periodic_spec 0 (VList [])) = Raise ZeroDivisionError.
Proof. split; [exists 0; reflexivity | reflexivity]. Qed.

(** C1 (amended).  For a mapping [{"len": L, "values": p}] whose [p] has
    [n] elements: when [n = 0], [sequence] raises [ZeroDivisionError]
    whatever [L] is; when [n > 0], it raises the [KeyError] of the
    divisibility check, and so constructs nothing, exactly when [L] is
    not a multiple of [n]; and when [L] is a multiple of [n] with a
    quotient of magnitude at most 2^53, it returns a [_Sequence] in
    periodic mode with [highest_index = L] and [periodic_values = p]. *)
Theorem sequence_mapping_divisibility (L : Z) (p : value) (n : Z) :
  len p = Ok n ->
  (n = 0 -> sequence (periodic_spec L p) = Raise ZeroDivisionError) /\
  (0 < n ->
   (sequence (periodic_spec L p) = Raise (KeyError (VStr multiple_msg))
    <-> ~ (n | L)) /\
   ((n | L) -> Z.abs (L / n) <= 2 ^ 53 ->
    exists s, sequence (periodic_spec L p) = Ok (Lazy s) /\
              mode_of s = periodic /\
              highest_index s = L /\
              periodic_values s = p)).
Proof.
  intros Hlen.
  destruct (sequence_periodic_spec_cases L p n Hlen) as (H0 & Hk & Hnk & Hok).
  split; [exact H0 |]. intros Hn. split; [split |].
  - intros E Hd. exact (Hnk Hn Hd E).
  - exact (Hk Hn).
  - intros Hd Hw. rewrite (Hok Hn Hd Hw). eexists.
    split; [reflexivity |]. repeat split.
    unfold mode_of. cbn [periodic_values].
    destruct (len_truthy p n Hlen) as (_ & -> & _).
    now rewrite (proj2 (Z.eqb_neq n 0)) by lia.
Qed.

Lemma sequence_mapping_divisibility_witness :
  exists s,
    sequence (periodic_spec 9 (VList [VInt 0; VInt 1; VInt 2])) = Ok (Lazy s) /\
    mode_of s = periodic /\
    highest_index s = 9 /\
    periodic_values s = VList [VInt 0; VInt 1; VInt 2].
Proof.
  refine (proj2 (proj2 (sequence_mapping_divisibility
                          9 (VList [VInt 0; VInt 1; VInt 2]) 3 eq_refl)
                       eq_refl) _ _).
  - exists 3. reflexivity.
  - vm_compute. discriminate.
Defined.

(** C2, at the mapping [{"len": 2^54 + 2, "values": [0, 1]}].  The
    length is even, so the check passes; the constructor computes the
    period length through a float, [int((2^54 + 2) / 2)], and gets 2^53
    where the exact quotient is 2^53 + 1.  Index 2^53 then reads
    [pattern[1]], where [index // (2^53 + 1)] is 0, and the last index of
    the sequence, 2^54 + 1, raises [IndexError]. *)
Theorem period_length_rounded_at_2p54 :
  sequence (periodic_spec 18014398509481986 (VList [VInt 0; VInt 1])) =
    Ok (Lazy (Build_Sequence VNone (VList [VInt 0; VInt 1]) false
                18014398509481986 (Some 9007199254740992) [])) /\
  18014398509481986 mod 2 = 0 /\
  18014398509481986 / 2 = 9007199254740993 /\
  9007199254740992 / 9007199254740993 = 0 /\
  fst (__getitem__ (Build_Sequence VNone (VList [VInt 0; VInt 1]) false
                      18014398509481986 (Some 9007199254740992) [])
         9007199254740992) = Ok (VInt 1) /\
  fst (__getitem__ (Build_Sequence VNone (VList [VInt 0; VInt 1]) false
                      18014398509481986 (Some 9007199254740992) [])
         18014398509481985) = Raise IndexError.
Proof. vm_compute. repeat split. Qed.

(** Where the quotient [w] is a float, that is up to 2^53, the mapping
    [{"len": w * len(p), "values": p}] gives the sequence of C2: period
    length [w], [s[i] = p[i // w]] for [0 <= i < len], length [len]. *)
Lemma periodic_spec_reads (p : list value) (w : Z) :
  p <> [] -> 1 <= w <= 2 ^ 53 ->
  exists s,
    sequence (periodic_spec (w * Z.of_nat (List.length p)) (VList p))
      = Ok (Lazy s) /\
    period_length s = Some w /\
    (forall i, 0 <= i < w * Z.of_nat (List.length p) ->
       exists v, nth_error p (Z.to_nat (i / w)) = Some v /\
                 fst (__getitem__ s i) = Ok v) /\
    fst (__len__ s) = Ok (w * Z.of_nat (List.length p)).
Proof.
  intros Hp Hw.
  assert (Hn : 0 < Z.of_nat (List.length p))
    by (destruct p; [contradiction | cbn; lia]).
  rewrite (sequence_periodic_spec_exact w (VList p) _ eq_refl) by lia.
  eexists. split; [reflexivity |].
  match goal with |- period_length ?s = _ /\ _ => set (s0 := s) end.
  assert (Hs : tiled s0 p w) by (repeat split; [assumption | cbn; lia]).
  split; [reflexivity |]. split.
  - intros i Hi.
    destruct (read_tiled s0 p w Hs i) as (v & Hv & E); [lia | lia |].
    exists v. now rewrite E.
  - rewrite (len_tiled s0 p w Hs). cbn. f_equal. lia.
Qed.

(** C3.  For a scalar [v] (a value that is not iterable, or a string),
    [sequence v] is a broadcast-mode sequence with default [v], and
    whatever was read before, reading any index [i] (in particular any
    non-negative one) returns [v]. *)
Theorem broadcast_read_returns_default (v : value) (keys : list Z) (i : Z) :
  is_iterable v = false \/ is_str v = true ->
  exists q,
    sequence v = Ok (Lazy q) /\
    mode_of q = broadcast /\
    default q = v /\
    fst (__getitem__ (reads keys q) i) = Ok v.
Proof.
  intros Hv. rewrite (sequence_scalar v Hv). eexists.
  split; [reflexivity |]. split; [reflexivity |]. split; [reflexivity |].
  rewrite reads_broadcast by reflexivity.
  rewrite getitem_broadcast by reflexivity. reflexivity.
Qed.

Lemma broadcast_read_returns_default_witness :
  exists q,
    sequence (VInt 10) = Ok (Lazy q) /\
    mode_of q = broadcast /\
    default q = VInt 10 /\
    fst (__getitem__ (reads [0; 10] q) 3) = Ok (VInt 10).
Proof.
  apply (broadcast_read_returns_default (VInt 10) [0; 10] 3).
  left. reflexivity.
Defined.

(** C6.  A collection that is iterable, not a string and not a mapping
    (a list, a tuple) is returned as it is. *)
Theorem sequence_collection_passthrough (c : value) :
  is_iterable c = true -> is_str c = false -> is_mutable_mapping c = false ->
  sequence c = Ok (PassThrough c).
Proof.
  intros Hi Hs Hm. destruct c; try discriminate; reflexivity.
Qed.

Lemma sequence_collection_passthrough_witness :
  sequence (VList [VInt 1; VInt 2]) = Ok (PassThrough (VList [VInt 1; VInt 2])).
Proof.
  apply sequence_collection_passthrough; reflexivity.
Defined.

(* ================================================================== *)
(** ** Length, iteration and the effect of the operations *)
(* ================================================================== *)

Lemma len_reads_broadcast (keys : list Z) (q : _Sequence) :
  mode_of q = broadcast ->
  fst (__len__ (reads keys q)) =
    Ok (Z.max (Z.of_nat (List.length (data q)))
              (fold_left Z.max keys (highest_index q) + 1)).
Proof.
  intros Hq. rewrite reads_broadcast by exact Hq.
  pose proof (broadcast_falsy q Hq) as Hf.
  unfold __len__. cbn [periodic_values set_highest_index].
  now rewrite Hf.
Qed.

(** C4.  Take a broadcast-mode sequence as the constructor leaves it
    ([highest_index = -1]) and read the indices [keys] in order.  The
    reported length is then [max(len(data), m + 1)] for the highest index
    [m] among [keys]; with no read it is [len(data)], hence 0 for the
    empty [data] that [sequence] sets up; it is the same for every
    reordering of [keys]; it does not decrease when more indices are
    read; and after the reads 2 and 5 on empty [data] it is 6. *)
Theorem broadcast_length_high_water (q : _Sequence) (keys : list Z) :
  mode_of q = broadcast -> highest_index q = -1 ->
  (forall m, In m keys -> (forall k, In k keys -> k <= m) ->
     fst (__len__ (reads keys q)) =
       Ok (Z.max (Z.of_nat (List.length (data q))) (m + 1))) /\
  (keys = [] ->
     fst (__len__ (reads keys q)) = Ok (Z.of_nat (List.length (data q)))) /\
  (forall keys', Permutation keys keys' ->
     fst (__len__ (reads keys' q)) = fst (__len__ (reads keys q))) /\
  (forall more, exists a b,
     fst (__len__ (reads keys q)) = Ok a /\
     fst (__len__ (reads (keys ++ more) q)) = Ok b /\
     a <= b) /\
  (data q = [] ->
     fst (__len__ q) = Ok 0 /\ fst (__len__ (reads [2; 5] q)) = Ok 6).
Proof.
  intros Hq Hh. repeat split.
  - intros m Hm Hub. rewrite len_reads_broadcast by exact Hq. rewrite Hh.
    destruct (fold_left_max_spec keys (-1)) as (H1 & H2 & H3).
    cbv zeta in H1, H2, H3. f_equal.
    pose proof (H2 m Hm). destruct H3 as [H3 | H3]; [lia |].
    pose proof (Hub _ H3). lia.
  - intros ->. unfold reads. cbn [fold_left].
    rewrite (len_broadcast q Hq), Hh. cbn [fst]. f_equal. lia.
  - intros keys' Hp. rewrite !len_reads_broadcast by exact Hq.
    now rewrite (fold_left_max_perm keys keys' Hp).
  - intros more. do 2 eexists.
    rewrite !len_reads_broadcast by exact Hq.
    split; [reflexivity |]. split; [reflexivity |].
    rewrite fold_left_app.
    destruct (fold_left_max_spec more
                (fold_left Z.max keys (highest_index q))) as (H1 & _).
    cbv zeta in H1. lia.
  - rewrite (len_broadcast q Hq), H, Hh. reflexivity.
  - rewrite len_reads_broadcast by exact Hq. rewrite H, Hh. reflexivity.
Qed.

Lemma broadcast_length_high_water_witness :
  fst (__len__ (Build_Sequence (VInt 10) VNone false (-1) None [])) = Ok 0 /\
  fst (__len__ (reads [2; 5]
                  (Build_Sequence (VInt 10) VNone false (-1) None []))) = Ok 6.
Proof.
  refine (proj2 (proj2 (proj2 (proj2
    (broadcast_length_high_water
       (Build_Sequence (VInt 10) VNone false (-1) None []) [5; 2]
       eq_refl eq_refl)))) eq_refl).
Defined.

(** C5, as stated, fails on a negative length: [{"len": -3, "values":
    [0, 1, 2]}] passes the check ([-3 % 3 == 0]) and gives a periodic
    sequence of length -3 and period length -1, whose iteration yields
    nothing: not -3 elements, and no element "-1 times". *)
Lemma iterate_negative_length :
  sequence (periodic_spec (-3) (VList [VInt 0; VInt 1; VInt 2])) =
    Ok (Lazy (Build_Sequence VNone (VList [VInt 0; VInt 1; VInt 2]) false
                (-3) (Some (-1)) [])) /\
  fst (__len__ (Build_Sequence VNone (VList [VInt 0; VInt 1; VInt 2]) false
                  (-3) (Some (-1)) [])) = Ok (-3) /\
  fst (__iter__ (Build_Sequence VNone (VList [VInt 0; VInt 1; VInt 2]) false
                   (-3) (Some (-1)) [])) = Ok [].
Proof. vm_compute. repeat split. Qed.

(** C5 (amended).  [__iter__] leaves the object as it is and a second
    call yields what the first did, in either mode.  On a periodic
    sequence whose pattern [p] tiles the length with period length [w],
    it yields [len(p) * max(w, 0)] items, the item at position [j] being
    [p[j // w]], that is each pattern element [w] times in order; these
    are [highest_index] items when [w >= 0].  On a broadcast sequence it
    yields [highest_index + 1] times the default (nothing when that
    count is negative) as long as the count fits a [Py_ssize_t], and
    raises [OverflowError] when it does not. *)
Theorem iterate_restartable (s : _Sequence) :
  snd (__iter__ s) = s /\
  fst (__iter__ (snd (__iter__ s))) = fst (__iter__ s) /\
  (forall p w, tiled s p w ->
     exists l,
       fst (__iter__ s) = Ok l /\
       List.length l = (List.length p * Z.to_nat w)%nat /\
       (forall j, (j < List.length l)%nat ->
          nth_error l j = nth_error p (j / Z.to_nat w)) /\
       (0 <= w -> Z.of_nat (List.length l) = highest_index s)) /\
  (mode_of s = broadcast ->
     (- maxsize - 1 <= highest_index s + 1 <= maxsize ->
      fst (__iter__ s) =
        Ok (repeat (default s) (Z.to_nat (highest_index s + 1)))) /\
     (highest_index s + 1 < - maxsize - 1 \/ maxsize < highest_index s + 1 ->
      fst (__iter__ s) = Raise OverflowError)).
Proof.
  assert (Hsnd : snd (__iter__ s) = s)
    by (unfold __iter__; destruct (truthy (periodic_values s)); reflexivity).
  split; [exact Hsnd |]. split; [now rewrite Hsnd |]. split.
  - intros p w Hs. exists (expand p w).
    rewrite (iter_tiled s p w Hs). split; [reflexivity |].
    split; [apply expand_length |]. split.
    + intros j Hj. apply expand_nth. now rewrite <- expand_length.
    + intros Hw. rewrite expand_length.
      destruct Hs as (_ & _ & _ & ->). lia.
  - intros Hq. rewrite (iter_broadcast s Hq). cbn [fst]. split; intros Hc.
    + now apply repeated_fits.
    + now apply repeated_overflow.
Qed.

Lemma iterate_restartable_witness :
  exists l,
    fst (__iter__ (Build_Sequence VNone (VList [VInt 0; VInt 1; VInt 2])
                     false 9 (Some 3) [])) = Ok l /\
    List.length l = (3 * Z.to_nat 3)%nat /\
    (forall j, (j < List.length l)%nat ->
       nth_error l j = nth_error [VInt 0; VInt 1; VInt 2] (j / Z.to_nat 3)) /\
    (0 <= 3 -> Z.of_nat (List.length l) = 9).
Proof.
  refine (proj1 (proj2 (proj2 (iterate_restartable
    (Build_Sequence VNone (VList [VInt 0; VInt 1; VInt 2]) false 9 (Some 3) []))))
    [VInt 0; VInt 1; VInt 2] 3 _).
  repeat split. discriminate.
Defined.

(** C8.  [__len__] and [__iter__] return the object as they found it,
    in either mode: every attribute, [highest_index] included, is
    unchanged.  Of the three operations only a read can change it. *)
Theorem observers_leave_object_unchanged (s : _Sequence) :
  snd (__len__ s) = s /\
  snd (__iter__ s) = s /\
  (forall o, (exists i, o = Read i) \/ snd (run o s) = s).
Proof.
  assert (Hl : snd (__len__ s) = s)
    by (unfold __len__; destruct (truthy (periodic_values s)); reflexivity).
  assert (Hi : snd (__iter__ s) = s)
    by (unfold __iter__; destruct (truthy (periodic_values s)); reflexivity).
  repeat split; try assumption.
  intros [i | |]; [left; now exists i | right; exact Hl | right; exact Hi].
Qed.

(* ================================================================== *)
(** ** Indices out of range, and what is checked when *)
(* ================================================================== *)

(** C7, as stated, fails on negative indices: on the broadcast sequence
    [sequence(7)] the read [s[-1]] returns 7, and on the periodic
    sequence of [{"len": 9, "values": [0, 1, 2]}] the read [s[-1]] wraps
    around to the last pattern element, 2. *)
Lemma negative_index_is_not_rejected :
  sequence (VInt 7) =
    Ok (Lazy (Build_Sequence (VInt 7) VNone false (-1) None [])) /\
  fst (__getitem__ (Build_Sequence (VInt 7) VNone false (-1) None []) (-1))
    = Ok (VInt 7) /\
  sequence (periodic_spec 9 (VList [VInt 0; VInt 1; VInt 2])) =
    Ok (Lazy (Build_Sequence VNone (VList [VInt 0; VInt 1; VInt 2]) false
                9 (Some 3) [])) /\
  fst (__getitem__ (Build_Sequence VNone (VList [VInt 0; VInt 1; VInt 2])
                      false 9 (Some 3) []) (-1))
    = Ok (VInt 2).
Proof. vm_compute. repeat split. Qed.

(** C7 (amended).  On a periodic sequence whose pattern tiles the length
    with a period length of at least 1, a read at an index at or beyond
    [highest_index], or below [- highest_index], raises [IndexError] and
    leaves the object as it is.  On a broadcast sequence no index is
    rejected: every read, negative ones included, returns the default. *)
Theorem read_range_faults (s : _Sequence) (i : Z) :
  (forall p w, tiled s p w -> 1 <= w ->
     highest_index s <= i \/ i < - highest_index s ->
     __getitem__ s i = (Raise IndexError, s)) /\
  (mode_of s = broadcast -> fst (__getitem__ s i) = Ok (default s)).
Proof.
  split.
  - intros p w Hs Hw Hi. apply (read_tiled_out_of_range s p w Hs i Hw).
    destruct Hs as (_ & _ & _ & <-). exact Hi.
  - intros Hq. now rewrite (getitem_broadcast s Hq).
Qed.

Lemma read_range_faults_witness :
  __getitem__ (Build_Sequence VNone (VList [VInt 0; VInt 1; VInt 2])
                 false 9 (Some 3) []) 9 =
    (Raise IndexError,
     Build_Sequence VNone (VList [VInt 0; VInt 1; VInt 2]) false 9 (Some 3) []).
Proof.
  refine (proj1 (read_range_faults
                   (Build_Sequence VNone (VList [VInt 0; VInt 1; VInt 2])
                      false 9 (Some 3) []) 9)
            [VInt 0; VInt 1; VInt 2] 3 _ _ _).
  - repeat split. discriminate.
  - lia.
  - left. cbn. lia.
Defined.

(** C9, as stated, fails on an empty [values]: [{"len": 6, "values": []}]
    does not get as far as a sequence that could be misused; [sequence]
    itself raises, [ZeroDivisionError], from the modulo of its check. *)
Lemma sequence_empty_values_raises :
  sequence (periodic_spec 6 (VList [])) = Raise ZeroDivisionError.
Proof. reflexivity. Qed.

(** C9 (amended).  What [sequence] rejects: nothing that is not a
    mapping; of a mapping [{"len": L, "values": p}] with [n = len(p)],
    an empty [p], on which the modulo of the check raises
    [ZeroDivisionError] at once, and a non-empty [p] of which [L] is not
    a multiple, by the [KeyError] of the check; a non-empty [p] of which
    [L] is a multiple, with a quotient of magnitude at most 2^53, is
    accepted.  Indices are not its business, and on the broadcast
    sequence that it returns for a scalar no read raises, whatever the
    index. *)
Theorem sequence_eager_checks (v : value) :
  (is_mutable_mapping v = false ->
   raises (sequence v) = false /\
   forall q i, sequence v = Ok (Lazy q) ->
     raises (fst (__getitem__ q i)) = false) /\
  (forall L p n, v = periodic_spec L p -> len p = Ok n ->
     (n = 0 -> sequence v = Raise ZeroDivisionError) /\
     (0 < n -> ~ (n | L) ->
      sequence v = Raise (KeyError (VStr multiple_msg))) /\
     (0 < n -> (n | L) -> Z.abs (L / n) <= 2 ^ 53 ->
      raises (sequence v) = false)).
Proof.
  split.
  - intros Hm. destruct v; try discriminate Hm; cbn; (split; [reflexivity |]);
      intros q i E; inversion E; reflexivity.
  - intros L p n -> Hlen.
    destruct (sequence_periodic_spec_cases L p n Hlen) as (H0 & Hk & _ & Hok).
    repeat split; auto.
    intros Hn Hd Hw. now rewrite (Hok Hn Hd Hw).
Qed.

Lemma sequence_eager_checks_witness :
  raises (sequence (periodic_spec 9 (VList [VInt 0; VInt 1; VInt 2]))) = false.
Proof.
  refine (proj2 (proj2 (proj2 (sequence_eager_checks
    (periodic_spec 9 (VList [VInt 0; VInt 1; VInt 2])))
    9 (VList [VInt 0; VInt 1; VInt 2]) 3 eq_refl eq_refl)) eq_refl _ _).
  - exists 3. reflexivity.
  - vm_compute. discriminate.
Defined.

(** C10, as stated, fails below [- highest_index] in periodic mode: on
    the sequence of [{"len": 9, "values": [0, 1, 2]}] the read [s[-10]]
    asks for [pattern[-4]] and raises [IndexError]. *)
Lemma negative_index_below_length_raises :
  sequence (periodic_spec 9 (VList [VInt 0; VInt 1; VInt 2])) =
    Ok (Lazy (Build_Sequence VNone (VList [VInt 0; VInt 1; VInt 2]) false
                9 (Some 3) [])) /\
  (-10) / 3 = -4 /\
  fst (__getitem__ (Build_Sequence VNone (VList [VInt 0; VInt 1; VInt 2])
                      false 9 (Some 3) []) (-10))
    = Raise IndexError.
Proof. vm_compute. repeat split. Qed.

(** C10 (amended).  A read at a negative index [i].  In broadcast mode
    it never raises: it returns the default and the reported length
    stays what it was.  In periodic mode, with a pattern [p] that tiles
    the length with a period length [w >= 1], it returns
    [p[len(p) + i // w]] when [- len(p) * w <= i] (so [s[-1]] is the last
    pattern element), the object unchanged, and raises [IndexError] when
    [i < - len(p) * w]. *)
Theorem negative_index_reads (s : _Sequence) (i : Z) :
  i < 0 ->
  (mode_of s = broadcast ->
   fst (__getitem__ s i) = Ok (default s) /\
   fst (__len__ (snd (__getitem__ s i))) = fst (__len__ s)) /\
  (forall p w, tiled s p w -> 1 <= w ->
     (- (Z.of_nat (List.length p) * w) <= i ->
      exists v,
        nth_error p (Z.to_nat (Z.of_nat (List.length p) + i / w)) = Some v /\
        __getitem__ s i = (Ok v, s)) /\
     (i < - (Z.of_nat (List.length p) * w) ->
      __getitem__ s i = (Raise IndexError, s))).
Proof.
  intros Hi. split.
  - intros Hq. rewrite (getitem_broadcast s Hq). cbn [fst snd].
    split; [reflexivity |].
    pose proof (broadcast_falsy s Hq) as Hf.
    unfold __len__. cbn [periodic_values set_highest_index highest_index data].
    rewrite Hf. cbn [fst]. f_equal. lia.
  - intros p w Hs Hw. split.
    + intros Hlo. apply (read_tiled_from_end s p w Hs i Hw). lia.
    + intros Hlo. apply (read_tiled_out_of_range s p w Hs i Hw). now right.
Qed.

Lemma negative_index_reads_witness :
  exists v,
    nth_error [VInt 0; VInt 1; VInt 2]
      (Z.to_nat (Z.of_nat (List.length [VInt 0; VInt 1; VInt 2]) + (-1) / 3))
      = Some v /\
    __getitem__ (Build_Sequence VNone (VList [VInt 0; VInt 1; VInt 2])
                   false 9 (Some 3) []) (-1) =
      (Ok v,
       Build_Sequence VNone (VList [VInt 0; VInt 1; VInt 2]) false 9 (Some 3) []).
Proof.
  refine (proj1 (proj2 (negative_index_reads
    (Build_Sequence VNone (VList [VInt 0; VInt 1; VInt 2]) false 9 (Some 3) [])
    (-1) eq_refl) [VInt 0; VInt 1; VInt 2] 3 _ _) _).
  - repeat split. discriminate.
  - lia.
  - cbn. lia.
Defined.

(* ================================================================== *)
(** ** Further properties of the module *)
(* ================================================================== *)

(** *** Blocks of a periodic sequence *)

(** X1.  The mapping [{"len": w * len(p), "values": p}], for a period length
    [w] from 1 to 2^53: index [k * w + r] with [0 <= r < w], the [r]-th
    of the [k]-th block, reads the pattern element [p[k]], and the read
    leaves the sequence as it is. *)
Theorem periodic_block_read (p : list value) (w k r : Z) :
  1 <= w <= 2 ^ 53 -> 0 <= k < Z.of_nat (List.length p) -> 0 <= r < w ->
  exists s v,
    sequence (periodic_spec (w * Z.of_nat (List.length p)) (VList p))
      = Ok (Lazy s) /\
    nth_error p (Z.to_nat k) = Some v /\
    __getitem__ s (k * w + r) = (Ok v, s).
Proof.
  intros Hw Hk Hr.
  assert (Hp : p <> []) by (intros ->; cbn in Hk; lia).
  rewrite (sequence_periodic_spec_exact w (VList p) _ eq_refl) by lia.
  eexists.
  match goal with |- exists v, Ok (Lazy ?s) = _ /\ _ => set (s0 := s) end.
  assert (Hs : tiled s0 p w) by (repeat split; [assumption | cbn; lia]).
  destruct (read_tiled s0 p w Hs (k * w + r)) as (v & Hv & E); [lia | nia |].
  rewrite Z.div_add_l, Z.div_small, Z.add_0_r in Hv by lia.
  exists v. repeat split; assumption.
Qed.

Lemma periodic_block_read_witness :
  exists s v,
    sequence (periodic_spec (3 * Z.of_nat (List.length [VInt 0; VInt 1; VInt 2]))
                (VList [VInt 0; VInt 1; VInt 2])) = Ok (Lazy s) /\
    nth_error [VInt 0; VInt 1; VInt 2] (Z.to_nat 2) = Some v /\
    __getitem__ s (2 * 3 + 1) = (Ok v, s).
Proof.
  apply (periodic_block_read [VInt 0; VInt 1; VInt 2] 3 2 1).
  - split; [lia | vm_compute; discriminate].
  - cbn. lia.
  - lia.
Defined.

(** *** The lazy sequence and its materialised list *)

Lemma expand_index (p : list value) (w i : Z) :
  1 <= w -> index (expand p w) i = index p (i / w).
Proof.
  intros Hw.
  set (n := Z.of_nat (List.length p)).
  assert (HL : Z.of_nat (List.length (expand p w)) = n * w)
    by (rewrite expand_length; subst n; lia).
  assert (Hin : forall j, 0 <= j < n * w ->
            index (expand p w) j = index p (j / w)).
  { intros j Hj.
    destruct (index_in_range (expand p w) j) as (v & Hv & ->); [lia |].
    destruct (index_in_range p (j / w)) as (v' & Hv' & ->).
    - fold n. split; [apply Z.div_pos; lia |].
      apply Z.div_lt_upper_bound; lia.
    - rewrite expand_nth in Hv by (rewrite expand_length in HL; lia).
      rewrite <- Z2Nat.inj_div in Hv by lia. congruence. }
  destruct (Z_lt_le_dec i 0) as [Hneg | Hpos].
  - destruct (Z_le_gt_dec (- (n * w)) i) as [Hlo | Hlo].
    + rewrite index_from_end by lia.
      rewrite (index_from_end p (i / w)).
      * rewrite HL, Hin by lia. fold n. f_equal.
        rewrite Z.div_add by lia. reflexivity.
      * fold n. split; [apply Z.div_le_lower_bound; lia |].
        apply Z.div_lt_upper_bound; lia.
    + rewrite !index_out_of_range; [reflexivity | |].
      * right. fold n. apply Z.div_lt_upper_bound; lia.
      * right. lia.
  - destruct (Z_lt_le_dec i (n * w)) as [Hhi | Hhi].
    + apply Hin. lia.
    + rewrite !index_out_of_range; [reflexivity | |].
      * left. fold n. apply Z.div_le_lower_bound; lia.
      * left. lia.
Qed.

(** X2.  On a periodic sequence whose pattern tiles the length with a period
    length of at least 1, the list [l] that iteration yields is a plain
    collection that [sequence] passes through; it has [__len__] items,
    and at every int index, negative and out of range included, [l[i]]
    is what the lazy [s[i]] is: the same value or the same [IndexError]. *)
Theorem periodic_materialised_list_agrees (s : _Sequence) (p : list value)
    (w : Z) :
  tiled s p w -> 1 <= w ->
  exists l,
    fst (__iter__ s) = Ok l /\
    sequence (VList l) = Ok (PassThrough (VList l)) /\
    len (VList l) = fst (__len__ s) /\
    forall i, getitem (VList l) i = fst (__getitem__ s i).
Proof.
  intros Hs Hw. exists (expand p w).
  rewrite (iter_tiled s p w Hs), (len_tiled s p w Hs).
  repeat split.
  - cbn [len fst]. f_equal. rewrite expand_length. lia.
  - intros i. rewrite (getitem_tiled s p w Hs) by lia.
    cbn [getitem fst]. now apply expand_index.
Qed.

Lemma periodic_materialised_list_agrees_witness :
  exists l,
    fst (__iter__ (Build_Sequence VNone (VList [VInt 0; VInt 1; VInt 2])
                     false 9 (Some 3) [])) = Ok l /\
    sequence (VList l) = Ok (PassThrough (VList l)) /\
    len (VList l) =
      fst (__len__ (Build_Sequence VNone (VList [VInt 0; VInt 1; VInt 2])
                      false 9 (Some 3) [])) /\
    forall i, getitem (VList l) i =
      fst (__getitem__ (Build_Sequence VNone (VList [VInt 0; VInt 1; VInt 2])
                          false 9 (Some 3) []) i).
Proof.
  apply (periodic_materialised_list_agrees _ [VInt 0; VInt 1; VInt 2] 3).
  - repeat split. discriminate.
  - lia.
Defined.

(** X3.  For a scalar [v] and reads of [sequence(v)] at indices below
    [sys.maxsize], iteration yields as many items as [__len__] reports,
    each of them [v].  Once an index of [sys.maxsize] or more has been
    read, the count no longer fits and iteration raises
    [OverflowError]. *)
Theorem broadcast_iteration_matches_length (v : value) (keys : list Z) :
  is_iterable v = false \/ is_str v = true ->
  exists q n,
    sequence v = Ok (Lazy q) /\
    fst (__len__ (reads keys q)) = Ok n /\
    ((forall k, In k keys -> k < maxsize) ->
     fst (__iter__ (reads keys q)) = Ok (repeat v (Z.to_nat n))) /\
    ((exists k, In k keys /\ maxsize <= k) ->
     fst (__iter__ (reads keys q)) = Raise OverflowError).
Proof.
  intros Hv. rewrite (sequence_scalar v Hv). do 2 eexists.
  split; [reflexivity |].
  rewrite len_reads_broadcast by reflexivity.
  split; [reflexivity |].
  rewrite reads_broadcast by reflexivity.
  rewrite iter_broadcast by reflexivity.
  cbn [fst default highest_index set_highest_index data List.length].
  destruct (fold_left_max_spec keys (-1)) as (H1 & H2 & H3).
  cbv zeta in H1, H2, H3.
  pose proof maxsize_pos as Hm. split.
  - intros Hk. rewrite repeated_fits.
    + do 3 f_equal. lia.
    + destruct H3 as [H3 | H3]; [lia |]. pose proof (Hk _ H3). lia.
  - intros (k & Hin & Hk). apply repeated_overflow. right.
    pose proof (H2 k Hin). lia.
Qed.

Lemma broadcast_iteration_matches_length_witness :
  exists q n,
    sequence (VInt 10) = Ok (Lazy q) /\
    fst (__len__ (reads [2; 5] q)) = Ok n /\
    fst (__iter__ (reads [2; 5] q)) = Ok (repeat (VInt 10) (Z.to_nat n)).
Proof.
  destruct (broadcast_iteration_matches_length (VInt 10) [2; 5]
              (or_introl eq_refl)) as (q & n & H1 & H2 & H3 & _).
  exists q, n. repeat split; try assumption.
  apply H3. intros k [<- | [<- | []]]; reflexivity.
Defined.

(** *** What the operations keep *)

Lemma run_step (o : op) (s : _Sequence) :
  snd (run o s) = s \/
  (mode_of s = broadcast /\
   exists i, snd (run o s) = set_highest_index s (Z.max (highest_index s) i)).
Proof.
  destruct o as [i | |]; cbn [run lift snd].
  - unfold __getitem__, mode_of.
    destruct (truthy (periodic_values s)); [now left | right].
    split; [reflexivity | now exists i].
  - left. unfold __len__. now destruct (truthy (periodic_values s)).
  - left. unfold __iter__. now destruct (truthy (periodic_values s)).
Qed.

(** X4.  Whatever reads, length queries and iterations are made, in whatever
    order and whether or not a read raises, a sequence keeps its
    default, its pattern, its period length, its data and hence its
    mode; [highest_index] never decreases; and a periodic sequence does
    not change at all. *)
Theorem operations_keep_configuration (s : _Sequence) (os : list op) :
  default (runs os s) = default s /\
  periodic_values (runs os s) = periodic_values s /\
  period_length (runs os s) = period_length s /\
  data (runs os s) = data s /\
  mode_of (runs os s) = mode_of s /\
  highest_index s <= highest_index (runs os s) /\
  (mode_of s = periodic -> runs os s = s).
Proof.
  revert s. induction os as [| o os IH]; intros s.
  - cbn. repeat split; try reflexivity; lia.
  - unfold runs in *. cbn [fold_left].
    destruct (IH (snd (run o s))) as (Hd & Hp & Hl & Ha & Hm & Hh & Hfix).
    destruct (run_step o s) as [E | (Hb & i & E)]; rewrite E in *.
    + repeat split; assumption.
    + unfold mode_of in Hm. cbn [default periodic_values period_length data
        highest_index set_highest_index] in *.
      repeat split; try assumption; [lia |].
      intros Hper. rewrite Hb in Hper. discriminate Hper.
Qed.

Lemma operations_keep_configuration_witness :
  runs [Read 4; Read (-10); Length; Read 100; Iterate]
    (Build_Sequence VNone (VList [VInt 0; VInt 1; VInt 2]) false 9 (Some 3) [])
  = Build_Sequence VNone (VList [VInt 0; VInt 1; VInt 2]) false 9 (Some 3) [].
Proof.
  apply (operations_keep_configuration
           (Build_Sequence VNone (VList [VInt 0; VInt 1; VInt 2])
              false 9 (Some 3) [])
           [Read 4; Read (-10); Length; Read 100; Iterate]).
  reflexivity.
Defined.

(** *** Mappings *)

Lemma sequence_mapping_unfold (d : list (string * value)) :
  sequence (VDict d) =
    match dict_find d "len", dict_find d "values" with
    | None, _ => Raise (KeyError (VStr "len"))
    | Some _, None => Raise (KeyError (VStr "values"))
    | Some x, Some p =>
        n <- len p ;;
        r <- mod_int x n ;;
        if negb (r =? 0) then Raise (KeyError (VStr multiple_msg))
        else match x with
             | VInt L => s <- __init__ VNone VNone p L ;; Ok (Lazy s)
             | _ => Raise TypeError
             end
    end.
Proof.
  unfold sequence, dict_getitem, dict_get. cbn [is_iterable is_str negb andb].
  destruct (dict_find d "len"); [| reflexivity]. cbn [bind].
  destruct (dict_find d "values"); reflexivity.
Qed.

(** X5.  A mapping without the key [len] raises [KeyError('len')], also when
    [values] is missing too; one with [len] but without [values] raises
    [KeyError('values')].  It is not taken for a scalar. *)
Theorem sequence_mapping_missing_key (d : list (string * value)) :
  (dict_find d "len" = None ->
   sequence (VDict d) = Raise (KeyError (VStr "len"))) /\
  (dict_find d "len" <> None -> dict_find d "values" = None ->
   sequence (VDict d) = Raise (KeyError (VStr "values"))).
Proof.
  rewrite sequence_mapping_unfold. split.
  - intros ->. reflexivity.
  - intros Hl ->. destruct (dict_find d "len"); [reflexivity | contradiction].
Qed.

Lemma sequence_mapping_missing_key_witness :
  sequence (VDict [("values", VList [VInt 1])]) = Raise (KeyError (VStr "len")) /\
  sequence (VDict [("len", VInt 1)]) = Raise (KeyError (VStr "values")).
Proof.
  split.
  - apply (proj1 (sequence_mapping_missing_key [("values", VList [VInt 1])])).
    reflexivity.
  - apply (proj2 (sequence_mapping_missing_key [("len", VInt 1)]));
      [discriminate | reflexivity].
Defined.

(** X6.  For a mapping that holds an int [L] under [len]: [sequence]
    returns exactly when the mapping holds, under [values], a collection
    whose positive element count divides [L] and the true division by
    which does not overflow; it then returns a new periodic sequence
    with no default, empty data, the values as pattern and [L] as
    [highest_index], never the mapping itself and never a broadcast
    sequence.  Other keys of the mapping play no part. *)
Theorem sequence_mapping_success (d : list (string * value)) (L : Z)
    (u : uniform) :
  dict_find d "len" = Some (VInt L) ->
  (sequence (VDict d) = Ok u <->
   exists p n w,
     dict_find d "values" = Some p /\
     len p = Ok n /\ 0 < n /\ (n | L) /\
     int_true_div L n = Ok w /\
     u = Lazy (Build_Sequence VNone p false L (Some w) [])).
Proof.
  intros HL. rewrite sequence_mapping_unfold, HL. split.
  - destruct (dict_find d "values") as [p |]; [| discriminate].
    destruct (len p) as [n | e] eqn:Hlen; [| discriminate].
    cbn [bind mod_int].
    destruct (Z.eqb_spec n 0) as [| Hn0]; [discriminate |]. cbn [bind].
    destruct (Z.eqb_spec (L mod n) 0) as [Hmod | _]; [| discriminate].
    cbn [negb]. destruct (len_truthy p n Hlen) as (Hn & Htr & _).
    unfold __init__. cbn [is_not_None andb]. rewrite Htr, Hlen.
    rewrite (proj2 (Z.eqb_neq n 0)) by assumption. cbn [negb bind].
    destruct (int_true_div L n) as [w | e] eqn:Hdiv; [| discriminate].
    cbn [bind]. intros E. inversion E. exists p, n, w.
    repeat split; try reflexivity; try assumption; try lia.
    apply Z.mod_divide; assumption.
  - intros (p & n & w & -> & Hlen & Hn & Hd & Hdiv & ->).
    rewrite Hlen. cbn [bind mod_int].
    rewrite (proj2 (Z.eqb_neq n 0)) by lia. cbn [bind].
    apply Z.mod_divide in Hd; [| lia]. rewrite Hd. cbn [Z.eqb negb].
    destruct (len_truthy p n Hlen) as (_ & Htr & _).
    unfold __init__. cbn [is_not_None andb]. rewrite Htr, Hlen.
    rewrite (proj2 (Z.eqb_neq n 0)) by lia. cbn [negb bind].
    rewrite Hdiv. reflexivity.
Qed.

Lemma sequence_mapping_success_witness :
  sequence (VDict [("unit", VStr "h"); ("values", VTuple [VInt 4; VInt 5]);
                   ("len", VInt 6)]) =
    Ok (Lazy (Build_Sequence VNone (VTuple [VInt 4; VInt 5]) false 6
                (Some 3) [])).
Proof.
  apply (proj2 (sequence_mapping_success
                  [("unit", VStr "h"); ("values", VTuple [VInt 4; VInt 5]);
                   ("len", VInt 6)] 6 _ eq_refl)).
  exists (VTuple [VInt 4; VInt 5]), 2, 3.
  repeat split. exists 3. reflexivity.
Defined.

(** *** The constructor *)

Lemma int_true_div_exn (a b : Z) (e : exn) :
  int_true_div a b = Raise e -> e = ZeroDivisionError \/ e = OverflowError.
Proof.
  unfold int_true_div, int_true_div_pos.
  repeat match goal with
         | |- context [if ?c then _ else _] => destruct c
         end; cbn [bind]; intros E; inversion E; auto.
Qed.

Lemma len_exn (v : value) (e : exn) : len v = Raise e -> e = TypeError.
Proof. destruct v; cbn; intros E; inversion E; reflexivity. Qed.

Lemma iter_exn (v : value) (e : exn) : iter v = Raise e -> e = TypeError.
Proof. destruct v; cbn; intros E; inversion E; reflexivity. Qed.

(** X7.  The constructor raises [ValueError] exactly when a default and
    periodic values are both given (both not [None], an empty pattern
    included); whatever else goes wrong in it is another exception. *)
Theorem init_value_error (initlist d p : value) (h : Z) :
  __init__ initlist d p h = Raise ValueError <->
  is_not_None d = true /\ is_not_None p = true.
Proof.
  unfold __init__. split.
  - destruct (is_not_None d), (is_not_None p); cbn [andb]; auto;
      intros E; exfalso;
      (destruct (truthy p);
       [ destruct (len p) as [n |] eqn:Hl; cbn [bind] in E;
         [ destruct (int_true_div h n) eqn:Hd; cbn [bind] in E;
           [| inversion E; subst;
              destruct (int_true_div_exn _ _ _ Hd); discriminate ]
         | inversion E; subst; apply len_exn in Hl; discriminate ]
       | cbn [bind] in E ]);
      (destruct (is_not_None initlist);
       [ destruct (iter initlist) eqn:Hi; cbn [bind] in E;
         [ discriminate
         | inversion E; subst; apply iter_exn in Hi; discriminate ]
       | discriminate ]).
  - intros [-> ->]. reflexivity.
Qed.

(** X8.  Periodic values without items (an empty list, tuple, string or
    dict) and no default: the constructor does not fail and does not
    divide; the sequence is in broadcast mode with default [None], every
    read returns [None], and the length is [highest_index + 1], or 0 when
    that is negative. *)
Theorem init_empty_pattern_is_broadcast (p : value) (h : Z) :
  len p = Ok 0 ->
  exists s,
    __init__ VNone VNone p h = Ok s /\
    mode_of s = broadcast /\
    period_length s = None /\
    (forall i, fst (__getitem__ s i) = Ok VNone) /\
    fst (__len__ s) = Ok (Z.max 0 (h + 1)).
Proof.
  intros Hlen. destruct (len_truthy p 0 Hlen) as (_ & Htr & _).
  cbn [Z.eqb negb] in Htr.
  unfold __init__. cbn [is_not_None andb]. rewrite Htr. cbn [bind].
  eexists. split; [reflexivity |].
  assert (Hm : forall hi,
            mode_of (Build_Sequence VNone p false hi None []) = broadcast)
    by (intros hi; unfold mode_of; cbn [periodic_values]; now rewrite Htr).
  split; [apply Hm |]. split; [reflexivity |]. split.
  - intros i. now rewrite getitem_broadcast by apply Hm.
  - now rewrite len_broadcast by apply Hm.
Qed.

Lemma init_empty_pattern_is_broadcast_witness :
  exists s,
    __init__ VNone VNone (VList []) 4 = Ok s /\
    mode_of s = broadcast /\
    period_length s = None /\
    (forall i, fst (__getitem__ s i) = Ok VNone) /\
    fst (__len__ s) = Ok (Z.max 0 (4 + 1)).
Proof.
  apply (init_empty_pattern_is_broadcast (VList []) 4). reflexivity.
Defined.

(** *** A length of zero *)

Lemma expand_zero (l : list value) : expand l 0 = [].
Proof. induction l as [| a l IH]; [reflexivity | exact IH]. Qed.

Lemma len_iter (v : value) (n : Z) :
  len v = Ok n -> exists l, iter v = Ok l /\ Z.of_nat (List.length l) = n.
Proof.
  destruct v; cbn; intros E; inversion E; eexists; (split; [reflexivity |]);
    rewrite ?chars_length, ?length_map; reflexivity.
Qed.

(** X9.  The mapping [{"len": 0, "values": p}] with a non-empty [p] is
    accepted.  The sequence has length 0 and iterates over nothing, and
    a read at any index raises [ZeroDivisionError], the period length
    being 0, and leaves the sequence as it is. *)
Theorem zero_length_sequence (p : value) (n : Z) :
  len p = Ok n -> 0 < n ->
  exists s,
    sequence (periodic_spec 0 p) = Ok (Lazy s) /\
    fst (__len__ s) = Ok 0 /\
    fst (__iter__ s) = Ok [] /\
    forall i, __getitem__ s i = (Raise ZeroDivisionError, s).
Proof.
  intros Hlen Hn.
  pose proof (sequence_periodic_spec_exact 0 p n Hlen Hn) as E.
  cbn [Z.mul Z.abs] in E. rewrite E by (vm_compute; discriminate).
  destruct (len_truthy p n Hlen) as (_ & Htr & _).
  rewrite (proj2 (Z.eqb_neq n 0)) in Htr by lia. cbn [negb] in Htr.
  eexists. split; [reflexivity |].
  unfold __len__, __iter__, __getitem__, _get_period_, periods.
  cbn [periodic_values period_length highest_index]. rewrite Htr.
  cbn [fst Z.eqb bind]. repeat split.
  destruct (len_iter p n Hlen) as (l & -> & _). cbn [bind].
  destruct l; [reflexivity | now rewrite expand_zero].
Qed.

Lemma zero_length_sequence_witness :
  exists s,
    sequence (periodic_spec 0 (VList [VInt 0; VInt 1; VInt 2])) = Ok (Lazy s) /\
    fst (__len__ s) = Ok 0 /\
    fst (__iter__ s) = Ok [] /\
    forall i, __getitem__ s i = (Raise ZeroDivisionError, s).
Proof.
  apply (zero_length_sequence (VList [VInt 0; VInt 1; VInt 2]) 3);
    reflexivity.
Defined.

(** *** [__init_list] *)



(** *** The period length that the constructor computes *)

Lemma round_half_even_lower (x y : Z) :
  0 <= x -> 0 < y -> x / y <= round_half_even x y.
Proof.
  intros Hx Hy. unfold round_half_even.
  repeat match goal with
         | |- context [if ?c then _ else _] => destruct c
         end; lia.
Qed.

Lemma round_half_even_upper (x y : Z) :
  0 < y -> 2 * y * round_half_even x y <= 2 * x + y.
Proof.
  intros Hy. unfold round_half_even.
  pose proof (Z.div_mod x y ltac:(lia)) as E.
  pose proof (Z.mod_pos_bound x y Hy) as Hr.
  destruct (Z.ltb_spec (2 * (x mod y)) y);
    [| destruct (Z.ltb_spec y (2 * (x mod y)));
       [| destruct (Z.even (x / y))]]; nia.
Qed.

Lemma int_true_div_pos_floor (n d : Z) :
  0 < n < 2 ^ 53 -> 0 < d -> int_true_div_pos n d = Ok (n / d).
Proof.
  intros [Hn0 Hn] Hd. unfold int_true_div_pos.
  change (2 ^ 53) with 9007199254740992 in Hn.
  destruct (Z.ltb_spec (2 * n) d) as [H2 | H2].
  { rewrite Z.div_small by lia. reflexivity. }
  destruct (Z.ltb_spec n d) as [H1 | H1].
  - change (0 <=? -1 - 52) with false. cbv iota.
    change (- (-1 - 52)) with 53.
    change (2 ^ 53) with 9007199254740992.
    set (m := round_half_even (n * 9007199254740992) d).
    pose proof (round_half_even_lower (n * 9007199254740992) d
                  ltac:(lia) Hd) as Hlo.
    pose proof (round_half_even_upper (n * 9007199254740992) d Hd) as Hup.
    fold m in Hlo, Hup.
    pose proof (Z.div_pos (n * 9007199254740992) d ltac:(lia) Hd).
    rewrite (Z.div_small n d), (Z.div_small m) by nia. reflexivity.
  - pose proof (Z.div_mod n d ltac:(lia)) as E.
    pose proof (Z.mod_pos_bound n d Hd) as Hr.
    set (q := n / d) in *.
    assert (Hq : 1 <= q) by nia.
    pose proof (Z.log2_spec q ltac:(lia)) as [Hlo Hhi].
    pose proof (Z.log2_nonneg q) as Hk0.
    set (k := Z.log2 q) in *.
    assert (Hk : k <= 52).
    { destruct (Z.le_gt_cases k 52) as [| Hgt]; [assumption |].
      pose proof (Z.pow_le_mono_r 2 53 k ltac:(lia) ltac:(lia)) as Hp.
      change (2 ^ 53) with 9007199254740992 in Hp. nia. }
    destruct (Z.leb_spec 0 (k - 52)) as [He | He].
    + assert (k = 52) by lia. subst k.
      replace (Z.log2 q - 52) with 0 by lia.
      change (2 ^ 0) with 1.
      change (2 ^ Z.log2 q) with (2 ^ Z.log2 q) in Hlo.
      assert (Hd1 : d = 1).
      { rewrite H in Hlo. change (2 ^ 52) with 4503599627370496 in Hlo. nia. }
      subst d. unfold round_half_even. cbn [Z.mul].
      rewrite Z.mod_1_r, Z.div_1_r. cbn [Z.mul Z.ltb Z.compare].
      rewrite Z.mul_1_r.
      destruct (Z.leb_spec (2 ^ 1024) n) as [Hov | _].
      * pose proof (Z.pow_lt_mono_r 2 53 1024 ltac:(lia) ltac:(lia) ltac:(lia)) as Hp.
        change (2 ^ 53) with 9007199254740992 in Hp. lia.
      * f_equal. subst q. now rewrite Z.div_1_r.
    + set (s := - (k - 52)).
      assert (Hs : 0 < s) by (subst s; lia).
      assert (HKP : 2 ^ k * 2 ^ s = 4503599627370496).
      { rewrite <- Z.pow_add_r by lia. subst s.
        replace (k + - (k - 52)) with 52 by lia. reflexivity. }
      pose proof (Z.pow_pos_nonneg 2 k ltac:(lia) ltac:(lia)) as HK.
      pose proof (Z.pow_pos_nonneg 2 s ltac:(lia) ltac:(lia)) as HP.
      set (K := 2 ^ k) in *. set (P := 2 ^ s) in *.
      set (m := round_half_even (n * P) d).
      pose proof (round_half_even_lower (n * P) d ltac:(nia) Hd) as Hml.
      pose proof (round_half_even_upper (n * P) d Hd) as Hmu.
      fold m in Hml, Hmu.
      assert (Hfl : q * P <= n * P / d)
        by (apply Z.div_le_lower_bound; nia).
      assert (HdP : d < 2 * P).
      { destruct (Z.lt_ge_cases d (2 * P)) as [| Hge]; [assumption |].
        assert (2 * P * K <= d * K) by nia.
        assert (d * K <= d * q) by nia. nia. }
      f_equal. symmetry. apply Z.div_unique with (r := m - q * P).
      * left. split; [lia |].
        destruct (Z.lt_ge_cases m ((q + 1) * P)) as [| Hge]; [lia |].
        assert (2 * d * ((q + 1) * P) <= 2 * d * m) by nia.
        assert (1 <= d * (q + 1) - n) by nia.
        assert (2 * P * 1 <= 2 * P * (d * (q + 1) - n)) by nia.
        nia.
      * ring.
Qed.

Lemma int_true_div_quot (a b : Z) :
  Z.abs a < 2 ^ 53 -> b <> 0 -> int_true_div a b = Ok (a ÷ b).
Proof.
  intros Ha Hb. unfold int_true_div.
  destruct (Z.eqb_spec b 0) as [| _]; [contradiction |].
  destruct (Z.eqb_spec a 0) as [-> | Ha0].
  - now rewrite Z.quot_0_l.
  - rewrite int_true_div_pos_floor by lia. cbn [bind].
    now rewrite Z.quot_div by assumption.
Qed.

(** X11.  For a [highest_index] of magnitude below 2^53 and [n > 0] periodic
    values, the constructor's float division loses nothing: the period
    length is the quotient of [highest_index] by [n], truncated toward
    zero.  For a non-negative [highest_index], iteration then yields
    [highest_index - highest_index % n] items, which is fewer than
    [__len__] reports unless [n] divides [highest_index]. *)
Theorem init_period_length (p : value) (n h : Z) :
  len p = Ok n -> 0 < n -> Z.abs h < 2 ^ 53 ->
  exists s,
    __init__ VNone VNone p h = Ok s /\
    period_length s = Some (h ÷ n) /\
    fst (__len__ s) = Ok h /\
    (0 <= h ->
     exists l, fst (__iter__ s) = Ok l /\
               Z.of_nat (List.length l) = h - h mod n).
Proof.
  intros Hlen Hn Hh.
  destruct (len_truthy p n Hlen) as (_ & Htr & _).
  rewrite (proj2 (Z.eqb_neq n 0)) in Htr by lia. cbn [negb] in Htr.
  unfold __init__. cbn [is_not_None andb]. rewrite Htr, Hlen. cbn [bind].
  rewrite int_true_div_quot by lia. cbn [bind].
  eexists. split; [reflexivity |]. split; [reflexivity |].
  unfold __len__, __iter__, periods.
  cbn [periodic_values period_length highest_index fst]. rewrite Htr.
  split; [reflexivity |]. intros Hh0.
  destruct (len_iter p n Hlen) as (l & -> & Hl). cbn [bind fst].
  destruct l as [| a l]; [cbn in Hl; lia |].
  eexists. split; [reflexivity |].
  rewrite expand_length. rewrite Nat2Z.inj_mul, Hl, Z2Nat.id by (apply Z.quot_pos; lia).
  rewrite Z.quot_div_nonneg by lia.
  pose proof (Z.div_mod h n ltac:(lia)).
  pose proof (Z.div_pos h n Hh0 Hn). lia.
Qed.

Lemma init_period_length_witness :
  exists s,
    __init__ VNone VNone (VList [VInt 0; VInt 1; VInt 2]) 10 = Ok s /\
    period_length s = Some (10 ÷ 3) /\
    fst (__len__ s) = Ok 10 /\
    (0 <= 10 ->
     exists l, fst (__iter__ s) = Ok l /\
               Z.of_nat (List.length l) = 10 - 10 mod 3).
Proof.
  apply (init_period_length (VList [VInt 0; VInt 1; VInt 2]) 3 10).
  - reflexivity.
  - lia.
  - vm_compute. reflexivity.
Defined.

(** *** Reads, as a set *)

Lemma reads_periodic (keys : list Z) (s : _Sequence) :
  mode_of s = periodic -> reads keys s = s.
Proof.
  intros Hs. induction keys as [| k keys IH]; [reflexivity |].
  unfold reads in *. cbn [fold_left].
  replace (snd (__getitem__ s k)) with s; [exact IH |].
  unfold __getitem__, mode_of in *.
  destruct (truthy (periodic_values s)); [reflexivity | discriminate].
Qed.

(** X12.  The object that a series of reads leaves depends only on which
    indices were read, not on their order nor on how often each was
    read, in either mode and whether or not a read raised. *)
Theorem reads_depend_on_index_set (s : _Sequence) (keys keys' : list Z) :
  (forall k, In k keys <-> In k keys') ->
  reads keys s = reads keys' s.
Proof.
  intros Hset. destruct (mode_of s) eqn:Hm.
  - rewrite !reads_broadcast by exact Hm. f_equal.
    destruct (fold_left_max_spec keys (highest_index s)) as (H1 & H2 & H3).
    destruct (fold_left_max_spec keys' (highest_index s)) as (H1' & H2' & H3').
    cbv zeta in *. apply Z.le_antisymm.
    + destruct H3 as [-> | H3]; [assumption |].
      apply H2', Hset, H3.
    + destruct H3' as [-> | H3']; [assumption |].
      apply H2, Hset, H3'.
  - now rewrite !reads_periodic by exact Hm.
Qed.

Lemma reads_depend_on_index_set_witness :
  reads [2; 5; 2] (Build_Sequence (VInt 10) VNone false (-1) None []) =
  reads [5; 2] (Build_Sequence (VInt 10) VNone false (-1) None []).
Proof.
  apply reads_depend_on_index_set.
  intros k. cbn. tauto.
Defined.
